(** * teldrive: the upload service and the transport client factory

    A shallow embedding of [pkg/services/upload.go] (the upload ledger
    queries and the one-part upload orchestrator [UploadFile]) and of
    [utils/tgc/tgc.go] (the client factory [New]).

    Conventions.
    - Go's [int], [int64] and [time.Duration] values are [Z]; a [time.Time]
      is the number of nanoseconds since the epoch, also a [Z].  The code
      performs no arithmetic on them that could wrap, other than
      [time.Now().Add(d)], which is written [now + d].
    - A Go [error] is its message.  A nil error is [None].
    - A call into a collaborator whose code is not part of the service
      (the ORM, the transport client, the cipher package, the random
      source) is answered by the environment: the answer is an input of
      the embedding, and the call is recorded in a trace. *)

From Stdlib Require Import ZArith List String Ascii Bool Lia QArith.
Import ListNotations.
Local Open Scope string_scope.
Local Open Scope list_scope.
Local Open Scope Z_scope.

Set Implicit Arguments.

(** ** Errors and results *)

Definition error := string.

Module http.
Definition StatusBadRequest : Z := 400.
End http.

Module types.
  (** [types.AppError{Error, Code}]; a [Code] left out of the literal is
      Go's zero value. *)
Record AppError := { Error : error; Code : Z }.
End types.

(** What a call of a service method does: it returns a value and a nil
    error, returns an [*AppError], or panics. *)
Inductive outcome (A : Type) :=
| Returned (a : A)
| Failed (e : types.AppError)
| Panicked (msg : string).
Arguments Returned {A} a.
Arguments Failed {A} e.
Arguments Panicked {A} msg.

(** ** The ledger model *)

Module models.
  (** [models.Upload], with the fields the struct literal of [UploadFile]
      fills in and the [created_at] column the listing query reads. *)
Record Upload := {
    Name      : string;
    UploadId  : string;
    PartId    : Z;
    ChannelID : Z;
    Size      : Z;
    PartNo    : Z;
    UserId    : Z;
    Encrypted : bool;
    Salt      : string;
    CreatedAt : Z
  }.
End models.

Module schemas.
  (** Modelled from the spec: [schemas.UploadPartOut] is not part of the
      sources at hand; the request-facing contract describes it as a part
      descriptor made of name, part number and size. *)
Record UploadPartOut := { Name : string; PartNo : Z; Size : Z }.

Record UploadOut := { Parts : list UploadPartOut }.

Record Message := { Message_Message : string }.

  (** [schemas.UploadQuery], the fields [UploadFile] reads. *)
Record UploadQuery := {
    PartName  : string;
    FileName  : string;
    q_PartNo  : Z;
    q_ChannelID : Z;
    q_Encrypted : bool
  }.
End schemas.

Module mapper.
  (** Modelled from the spec: [mapper.ToUploadOut] is not part of the
      sources at hand; it maps a Part Record to its descriptor. *)
Definition ToUploadOut (u : models.Upload) : schemas.UploadPartOut :=
    {| schemas.Name := models.Name u;
       schemas.PartNo := models.PartNo u;
       schemas.Size := models.Size u |}.
End mapper.

(** ** Configuration *)

Module config.
Record Uploads := {
    EncryptionKey : string;
    Retention     : Z;   (* a time.Duration *)
    Threads       : Z;
    MaxRetries    : Z
  }.
Record TGConfig := { uploads : Uploads; PoolSize : Z }.
End config.

Definition second : Z := 1000000000.

(** ** The ORM queries of the ledger *)

Module gorm.
  (** The table of Part Records is the list of its rows. *)
Definition table := list models.Upload.

  (** [Order("part_no")]: rows by ascending part number. *)
Fixpoint insert_by_part_no (u : models.Upload) (l : table) : table :=
    match l with
    | [] => [u]
    | v :: l' =>
        if models.PartNo u <=? models.PartNo v
        then u :: v :: l'
        else v :: insert_by_part_no u l'
    end.

Fixpoint order_by_part_no (l : table) : table :=
    match l with
    | [] => []
    | u :: l' => insert_by_part_no u (order_by_part_no l')
    end.

  (** [Where("upload_id = ?", id)] *)
Definition where_upload_id (id : string) (u : models.Upload) : bool :=
    String.eqb (models.UploadId u) id.

  (** [Where("created_at < ?", t)] *)
Definition where_created_before (t : Z) (u : models.Upload) : bool :=
    models.CreatedAt u <? t.

  (** [db.Where("upload_id = ?", id).Delete(&models.Upload{})]: the rows
      that stay. *)
Definition delete_where_upload_id (id : string) (db : table) : table :=
    filter (fun u => negb (where_upload_id id u)) db.

  (** [db.Create(row)]: the store stamps [created_at]. *)
Definition create (now : Z) (u : models.Upload) (db : table) : table :=
    db ++ [ {| models.Name := models.Name u;
               models.UploadId := models.UploadId u;
               models.PartId := models.PartId u;
               models.ChannelID := models.ChannelID u;
               models.Size := models.Size u;
               models.PartNo := models.PartNo u;
               models.UserId := models.UserId u;
               models.Encrypted := models.Encrypted u;
               models.Salt := models.Salt u;
               models.CreatedAt := now |} ].
End gorm.

(** ** The transport client factory ([utils/tgc/tgc.go]) *)

Module tdclock.
Inductive Clock := System | Default.
End tdclock.

Module backoff.
(** [backoff.ExponentialBackOff]; the factors are Go [float64] constants,
    kept as the decimal fractions the source writes. *)
Record ExponentialBackOff := {
    InitialInterval     : Z;
    RandomizationFactor : Q;
    Multiplier          : Q;
    MaxInterval         : Z;
    MaxElapsedTime      : Z;
    Clock               : tdclock.Clock
  }.
End backoff.

Module utils.
(** [utils.Config], the fields the factory reads. *)
Record Config := {
    AppId   : Z;
    AppHash : string;
    TgClientDeviceModel    : string;
    TgClientSystemVersion  : string;
    TgClientAppVersion     : string;
    TgClientSystemLangCode : string;
    TgClientLangPack       : string;
    TgClientLangCode       : string
  }.
End utils.

Module telegram.
Record DeviceConfig := {
    DeviceModel    : string;
    SystemVersion  : string;
    AppVersion     : string;
    SystemLangCode : string;
    LangPack       : string;
    LangCode       : string
  }.

Section Options.
Variables UpdateHandler Storage Middleware : Type.

(** [telegram.Options], the fields [New] sets.  [ReconnectionBackoff] is
    a thunk in the source; it receives here the object that
    [backoff.NewExponentialBackOff()] hands out. *)
Record Options := {
    ReconnectionBackoff : backoff.ExponentialBackOff -> backoff.ExponentialBackOff;
    Device         : DeviceConfig;
    SessionStorage : Storage;
    RetryInterval  : Z;
    MaxRetries     : Z;
    DialTimeout    : Z;
    Middlewares    : list Middleware;
    Clock          : tdclock.Clock;
    NoUpdates      : bool;
    UpdateHandler_ : option UpdateHandler
  }.

(** What [telegram.NewClient(appId, appHash, opts)] is given. *)
Record Client := { appID : Z; appHash : string; opts : Options }.
End Options.
End telegram.

Module tgc.
Definition deviceConfig (appConfig : utils.Config) : telegram.DeviceConfig :=
  {| telegram.DeviceModel    := utils.TgClientDeviceModel appConfig;
     telegram.SystemVersion  := utils.TgClientSystemVersion appConfig;
     telegram.AppVersion     := utils.TgClientAppVersion appConfig;
     telegram.SystemLangCode := utils.TgClientSystemLangCode appConfig;
     telegram.LangPack       := utils.TgClientLangPack appConfig;
     telegram.LangCode       := utils.TgClientLangCode appConfig |}.

Section New.
Variables UpdateHandler Storage Middleware : Type.

(** [New]; [config] is what [utils.GetConfig()] returns, a nil [handler]
    is [None]. *)
Definition New (config : utils.Config) (handler : option UpdateHandler)
    (storage : Storage) (middlewares : list Middleware)
  : telegram.Client UpdateHandler Storage Middleware :=
  let _clock := tdclock.System in
  let noUpdates := match handler with Some _ => false | None => true end in
  let opts :=
    {| telegram.ReconnectionBackoff := fun b =>
         {| backoff.InitialInterval     := backoff.InitialInterval b;
            backoff.RandomizationFactor := backoff.RandomizationFactor b;
            backoff.Multiplier          := 11 # 10;
            backoff.MaxInterval         := backoff.MaxInterval b;
            backoff.MaxElapsedTime      := 120 * second;
            backoff.Clock               := _clock |};
       telegram.Device         := deviceConfig config;
       telegram.SessionStorage := storage;
       telegram.RetryInterval  := 5 * second;
       telegram.MaxRetries     := 5;
       telegram.DialTimeout    := 10 * second;
       telegram.Middlewares    := middlewares;
       telegram.Clock          := _clock;
       telegram.NoUpdates      := noUpdates;
       telegram.UpdateHandler_ := handler |} in
  {| telegram.appID := utils.AppId config;
     telegram.appHash := utils.AppHash config;
     telegram.opts := opts |}.
End New.
End tgc.


(** ** The transport API, as far as [UploadFile] looks at it *)

Module tg.
(** [tg.MessageClass]: [*tg.Message], [*tg.MessageEmpty] or
    [*tg.MessageService]; only the identifier is read. *)
Inductive MessageClass :=
| Message (ID : Z)
| MessageEmpty (ID : Z)
| MessageService (ID : Z).

(** [tg.UpdateClass]: the new-channel-message update, or any other. *)
Inductive UpdateClass :=
| UpdateNewChannelMessage (m : MessageClass)
| UpdateOther.

(** [tg.UpdatesClass]: [*tg.Updates], or any other constructor
    ([*tg.UpdateShort], [*tg.UpdatesCombined], ...). *)
Inductive UpdatesClass :=
| Updates (updates : list UpdateClass)
| UpdatesOther.

(** [tg.MessagesMessagesClass]: [*tg.MessagesChannelMessages], or any
    other constructor ([*tg.MessagesMessages], ...). *)
Inductive MessagesMessagesClass :=
| MessagesChannelMessages (Messages : list MessageClass)
| MessagesOther.

Record InputChannel := { ChannelID : Z; AccessHash : Z }.
End tg.

(** A byte stream is the bytes it yields. *)
Definition Stream := list Z.

(** The cipher object and the uploaded-file reference are handles that
    the service passes on without looking inside. *)
Definition Cipher := Z.
Definition InputFile := Z.

(** ** Calls into collaborators *)

Inductive Event :=
| EvBodyClose
| EvGetDefaultChannel (userId : Z)
| EvGetBotsToken (userId channelId : Z)
| EvAuthClient (session : string)
| EvWorkerSet (tokens : list string) (channelId : Z)
| EvWorkerNext (channelId : Z)
| EvBotClient (token : string)
| EvNewPool (size : Z)
| EvPoolClose
| EvRunWithAuth (token : string)
| EvGetChannelById (channelId : Z)
| EvRandRead (n : Z)
| EvNewCipher (key salt : string)
| EvEncryptData (cipher : Cipher)
| EvUpload (name : string) (stream : Stream) (size : Z)
| EvSendMedia (channel : tg.InputChannel) (file : InputFile) (name : string)
| EvDbCreate (row : models.Upload)
| EvChannelsDeleteMessages (channel : tg.InputChannel) (ids : list Z)
| EvChannelsGetMessages (channel : tg.InputChannel) (id : Z).

(** The answers of the collaborators to one call of [UploadFile].  An
    answer [inl err] is a non-nil error.  Where the source discards the
    error and keeps the value, the answer is the pair. *)
Record Env := {
    e_bindQuery         : error + schemas.UploadQuery;  (* c.ShouldBindQuery *)
    e_user              : Z * string;                   (* auth.GetUser *)
    e_paramId           : string;                       (* c.Param("id") *)
    e_body              : Stream;                       (* c.Request.Body *)
    e_contentLength     : Z;                            (* c.Request.ContentLength *)
    e_getDefaultChannel : error + Z;
    e_getBotsToken      : error + list string;
    e_authClient        : option error;                 (* tgc.AuthClient *)
    e_workerNext        : string * Z;                   (* us.worker.Next *)
    e_botClient         : option error;                 (* tgc.BotClient *)
    e_runWithAuth       : option error;                 (* failure to authenticate *)
    e_getChannelById    : error + tg.InputChannel;
    e_randRead          : error + list Z;               (* rand.Read *)
    e_sha256            : list Z -> list Z;             (* sha256 digest *)
    e_newCipher         : string -> string -> Cipher * option error;
    e_encryptData       : Cipher -> Stream -> Stream * option error;
    e_encryptedSize     : Z -> Z;                       (* crypt.EncryptedSize *)
    e_upload            : error + InputFile;            (* u.Upload *)
    e_media             : error + tg.UpdatesClass;      (* target.Media *)
    e_now               : Z;                            (* the store's clock *)
    e_dbCreate          : option error;                 (* us.db.Create(..).Error *)
    e_getMessages       : option tg.MessagesMessagesClass * option error
  }.

(** ** State, errors and panics *)

Record World := { ledger : gorm.table; trace : list Event }.

Inductive res (E A : Type) :=
| Val (a : A)
| Err (e : E)
| Panic (msg : string).
Arguments Val {E A} a.
Arguments Err {E A} e.
Arguments Panic {E A} msg.

Definition M (E A : Type) := World -> res E A * World.

Definition ret {E A} (a : A) : M E A := fun w => (Val a, w).

Definition bind {E A B} (m : M E A) (k : A -> M E B) : M E B :=
  fun w => match m w with
           | (Val a, w') => k a w'
           | (Err e, w') => (Err e, w')
           | (Panic s, w') => (Panic s, w')
           end.

Definition fail {E A} (e : E) : M E A := fun w => (Err e, w).

Definition panic {E A} (msg : string) : M E A := fun w => (Panic msg, w).

Definition emit {E} (ev : Event) : M E unit :=
  fun w => (Val tt, {| ledger := ledger w; trace := trace w ++ [ev] |}).

Definition store {E} (f : gorm.table -> gorm.table) : M E unit :=
  fun w => (Val tt, {| ledger := f (ledger w); trace := trace w |}).

(** [defer]: the deferred call runs when the rest of the function is
    left, whether by return or by panic. *)
Definition defer {E A} (ev : Event) (m : M E A) : M E A :=
  fun w => match m w with
           | (r, w') => (r, {| ledger := ledger w'; trace := trace w' ++ [ev] |})
           end.

Declare Scope go_scope.
Delimit Scope go_scope with go.
Notation "x <- m ;; k" := (bind m (fun x => k))
  (at level 61, m at next level, right associativity) : go_scope.
Notation "m ;;; k" := (bind m (fun _ => k))
  (at level 61, right associativity) : go_scope.

(** [v, err := f(..); if err != nil { return wrap(err) }] *)
Definition call {E A} (wrap : error -> E) (ev : Event) (r : error + A) : M E A :=
  (emit ev ;;;
   match r with
   | inl err => fail (wrap err)
   | inr v => ret v
   end)%go.

(** [err := f(..); if err != nil { return wrap(err) }] *)
Definition call_ {E} (wrap : error -> E) (ev : Event) (r : option error) : M E unit :=
  (emit ev ;;;
   match r with
   | Some err => fail (wrap err)
   | None => ret tt
   end)%go.

(** A computation that calls no collaborator. *)
Definition pure {E A} (r : res Empty_set A) : M E A :=
  fun w => match r with
           | Val a => (Val a, w)
           | Err e => match e with end
           | Panic s => (Panic s, w)
           end.

(** [v, _ := f(..)] *)
Definition discard {E A} (ev : Event) (r : A * option error) : M E A :=
  (emit ev ;;; ret (fst r))%go.


(** ** The ledger queries of the service *)

(** The rows [GetUploadFileById] selects: the two [Where] clauses of its
    query, then [Order("part_no")]. *)
Definition selected_rows (retention now : Z) (uploadId : string)
    (db : gorm.table) : gorm.table :=
  gorm.order_by_part_no
    (filter (fun u => gorm.where_upload_id uploadId u
                      && gorm.where_created_before (now + retention) u) db).

(** [GetUploadFileById].  [now] is [time.Now().UTC()], [dberr] the error
    of the query, as the store reports it. *)
Definition GetUploadFileById (cnf : config.TGConfig) (db : gorm.table)
    (now : Z) (dberr : option error) (uploadId : string)
  : outcome schemas.UploadOut :=
  match dberr with
  | Some err => Failed {| types.Error := err; types.Code := 0 |}
  | None =>
      Returned {| schemas.Parts :=
        map mapper.ToUploadOut
          (selected_rows (config.Retention (config.uploads cnf)) now uploadId db) |}
  end.

(** [DeleteUploadFile].  A failed statement leaves the table as it was. *)
Definition DeleteUploadFile_M (dberr : option error) (uploadId : string)
  : M types.AppError schemas.Message :=
  match dberr with
  | Some err => fail {| types.Error := err; types.Code := 0 |}
  | None =>
      (store (gorm.delete_where_upload_id uploadId) ;;;
       ret {| schemas.Message_Message := "upload deleted" |})%go
  end.

Definition run {A} (m : M types.AppError A) (w : World) : outcome A * World :=
  match m w with
  | (Val a, w') => (Returned a, w')
  | (Err e, w') => (Failed e, w')
  | (Panic s, w') => (Panicked s, w')
  end.

Definition DeleteUploadFile (dberr : option error) (uploadId : string)
    (w : World) : outcome schemas.Message * World :=
  run (DeleteUploadFile_M dberr uploadId) w.


(** ** Salt generation *)

Module base64.
Definition encodeURL : string :=
  "ABCDEFGHIJKLMNOPQRSTUVWXYZabcdefghijklmnopqrstuvwxyz0123456789-_".

Definition digit (n : Z) : ascii :=
  match String.get (Z.to_nat (Z.land n 63)) encodeURL with
  | Some c => c
  | None => "="%char
  end.

(** [base64.URLEncoding.EncodeToString]: three bytes give four digits,
    a last group of one or two bytes is padded with [=]. *)
Fixpoint EncodeToString (src : list Z) : string :=
  match src with
  | [] => ""
  | [a] =>
      let v := Z.shiftl a 16 in
      String (digit (Z.shiftr v 18)) (String (digit (Z.shiftr v 12)) "==")
  | [a; b] =>
      let v := Z.lor (Z.shiftl a 16) (Z.shiftl b 8) in
      String (digit (Z.shiftr v 18)) (String (digit (Z.shiftr v 12))
        (String (digit (Z.shiftr v 6)) "="))
  | a :: b :: c :: rest =>
      let v := Z.lor (Z.lor (Z.shiftl a 16) (Z.shiftl b 8)) c in
      String (digit (Z.shiftr v 18)) (String (digit (Z.shiftr v 12))
        (String (digit (Z.shiftr v 6)) (String (digit v)
          (EncodeToString rest))))
  end.
End base64.

Definition saltLength : Z := 32.

(** [generateRandomSalt]: the salt and the error, as Go returns them. *)
Definition generateRandomSalt {E} (env : Env) : M E (string * option error) :=
  (emit (EvRandRead saltLength) ;;;
   match e_randRead env with
   | inl err => ret ("", Some err)
   | inr randomBytes =>
       let hashedSalt := base64.EncodeToString (e_sha256 env randomBytes) in
       ret (hashedSalt, None)
   end)%go.

(** ** [UploadFile] *)

(** The loop over [updates.Updates]: the message of the first
    new-channel-message update, [None] for the nil pointer the variable
    starts with.  The type assertion on the message panics when it is
    not a [*tg.Message].  The loop calls nothing and returns no error. *)
Fixpoint first_channel_message (updates : list tg.UpdateClass)
  : res Empty_set (option Z) :=
  match updates with
  | [] => Val None
  | tg.UpdateNewChannelMessage m :: _ =>
      match m with
      | tg.Message id => Val (Some id)
      | _ => Panic "interface conversion: tg.MessageClass is not *tg.Message"
      end
  | tg.UpdateOther :: rest => first_channel_message rest
  end.

(** The function literal handed to [tgc.RunWithAuth].  It returns the
    value it assigns to the captured variable [out]. *)
Definition upload_closure (cnf : config.TGConfig) (env : Env)
    (uploadQuery : schemas.UploadQuery) (uploadId : string) (userId : Z)
    (channelId : Z) : M error schemas.UploadPartOut :=
  (channel <- call id (EvGetChannelById channelId) (e_getChannelById env) ;;
   let key := config.EncryptionKey (config.uploads cnf) in
   enc <- (if schemas.q_Encrypted uploadQuery then
             r <- generateRandomSalt env ;;
             let salt := fst r in
             cipher <- discard (EvNewCipher key salt) (e_newCipher env key salt) ;;
             let fileSize := e_encryptedSize env (e_contentLength env) in
             fileStream <- discard (EvEncryptData cipher)
                             (e_encryptData env cipher (e_body env)) ;;
             ret (salt, fileSize, fileStream)
           else ret ("", e_contentLength env, e_body env)) ;;
   let '(salt, fileSize, fileStream) := enc in
   upload <- call id (EvUpload (schemas.PartName uploadQuery) fileStream fileSize)
               (e_upload env) ;;
   res <- call id (EvSendMedia channel upload (schemas.PartName uploadQuery))
            (e_media env) ;;
   updates <- match res with
              | tg.Updates us => ret us
              | tg.UpdatesOther =>
                  panic "interface conversion: tg.UpdatesClass is not *tg.Updates"
              end ;;
   message <- pure (first_channel_message updates) ;;
   message_ID <- match message with
                 | Some i => ret i
                 | None => panic "invalid memory address or nil pointer dereference"
                 end ;;
   if message_ID =? 0 then fail "upload failed" else
   let partUpload :=
     {| models.Name      := schemas.PartName uploadQuery;
        models.UploadId  := uploadId;
        models.PartId    := message_ID;
        models.ChannelID := channelId;
        models.Size      := fileSize;
        models.PartNo    := schemas.q_PartNo uploadQuery;
        models.UserId    := userId;
        models.Encrypted := schemas.q_Encrypted uploadQuery;
        models.Salt      := salt;
        models.CreatedAt := 0 |} in
   emit (EvDbCreate partUpload) ;;;
   match e_dbCreate env with
   | Some err =>
       (if negb (message_ID =? 0)
        then emit (EvChannelsDeleteMessages channel [message_ID])
        else ret tt) ;;;
       fail err
   | None =>
       store (gorm.create (e_now env) partUpload) ;;;
       msgs <- discard (EvChannelsGetMessages channel message_ID)
                 (e_getMessages env) ;;
       match msgs with
       | None => ret (mapper.ToUploadOut partUpload)
       | Some (tg.MessagesChannelMessages Messages) =>
           if (Z.of_nat (List.length Messages) =? 0)
           then fail "upload failed"
           else ret (mapper.ToUploadOut partUpload)
       | Some tg.MessagesOther =>
           panic "interface conversion: tg.MessagesMessagesClass is not *tg.MessagesChannelMessages"
       end
   end)%go.

(** Modelled from the spec: [tgc.RunWithAuth] is not part of the sources
    at hand; it authenticates the client as the chosen identity and runs
    the callback, whose error it returns. *)
Definition RunWithAuth {E A} (env : Env) (token : string) (f : M error A)
  : M E (error + A) :=
  fun w =>
    match emit (E:=E) (EvRunWithAuth token) w with
    | (_, w1) =>
        match e_runWithAuth env with
        | Some err => (Val (inl err), w1)
        | None =>
            match f w1 with
            | (Val a, w2) => (Val (inr a), w2)
            | (Err e, w2) => (Val (inl e), w2)
            | (Panic s, w2) => (Panic s, w2)
            end
        end
    end.

Definition badRequest (err : error) : types.AppError :=
  {| types.Error := err; types.Code := http.StatusBadRequest |}.

Definition appError (err : error) : types.AppError :=
  {| types.Error := err; types.Code := 0 |}.

(** The body of [UploadFile].  The two [defer] statements close the
    request body and the pool on every way out that follows them.  The
    calls to the logger are left out, and with them [channelUser] and the
    bot index, which only the logger reads; so are the constructors that
    call nothing ([tgc.Middlewares], [uploader.NewUploader],
    [message.NewSender]). *)
Definition UploadFile_M (cnf : config.TGConfig) (env : Env)
  : M types.AppError schemas.UploadPartOut :=
  (uploadQuery <- match e_bindQuery env with
                  | inl err => fail (badRequest err)
                  | inr q => ret q
                  end ;;
   if schemas.q_Encrypted uploadQuery
      && String.eqb (config.EncryptionKey (config.uploads cnf)) ""
   then fail (badRequest "encryption key not found")
   else
   let '(userId, session) := e_user env in
   let uploadId := e_paramId env in
   defer EvBodyClose
     (channelId <- (if schemas.q_ChannelID uploadQuery =? 0
                    then call appError (EvGetDefaultChannel userId)
                           (e_getDefaultChannel env)
                    else ret (schemas.q_ChannelID uploadQuery)) ;;
      tokens <- call appError (EvGetBotsToken userId channelId)
                  (e_getBotsToken env) ;;
      token <- (if Z.of_nat (List.length tokens) =? 0
                then call_ appError (EvAuthClient session) (e_authClient env) ;;;
                     ret ""
                else emit (EvWorkerSet tokens channelId) ;;;
                     emit (EvWorkerNext channelId) ;;;
                     let token := fst (e_workerNext env) in
                     call_ appError (EvBotClient token) (e_botClient env) ;;;
                     ret token) ;;
      emit (EvNewPool (config.PoolSize cnf)) ;;;
      defer EvPoolClose
        (r <- RunWithAuth env token
                (upload_closure cnf env uploadQuery uploadId userId channelId) ;;
         match r with
         | inl err => fail (appError err)
         | inr out => ret out
         end)))%go.

(** [UploadFile], from a ledger and an empty trace. *)
Definition UploadFile (cnf : config.TGConfig) (db : gorm.table) (env : Env)
  : outcome schemas.UploadPartOut * World :=
  run (UploadFile_M cnf env) {| ledger := db; trace := [] |}.


(** * Scenarios *)

(** A configuration with a retention window of seven days, and a ledger
    with two parts of session [abc]: the first was created one second
    before the window opens, the second one second after. *)
Definition week : Z := 7 * 24 * 3600 * second.

Definition cnf_week : config.TGConfig :=
  {| config.uploads := {| config.EncryptionKey := "secret";
                          config.Retention := week;
                          config.Threads := 8;
                          config.MaxRetries := 10 |};
     config.PoolSize := 8 |}.

Definition noon : Z := 1700000000 * second.

Definition part (id : string) (no : Z) (created : Z) : models.Upload :=
  {| models.Name := "part"; models.UploadId := id; models.PartId := 40 + no;
     models.ChannelID := 100; models.Size := 1024; models.PartNo := no;
     models.UserId := 7; models.Encrypted := false; models.Salt := "";
     models.CreatedAt := created |}.

Definition expired_part : models.Upload := part "abc" 1 (noon - (week + second)).
Definition fresh_part : models.Upload := part "abc" 2 (noon - (week - second)).


(** One part of session [abc], sent by a bot to channel 100.  The
    scenario fixes the request and the answers of the lookups; the
    answers that the properties below vary are its arguments. *)
Definition query (encrypted : bool) : schemas.UploadQuery :=
  {| schemas.PartName := "video.mp4.001";
     schemas.FileName := "video.mp4";
     schemas.q_PartNo := 1;
     schemas.q_ChannelID := 100;
     schemas.q_Encrypted := encrypted |}.

(** A stand-in for the digest: 32 bytes taken from the input. *)
Definition digest32 (bs : list Z) : list Z := firstn 32 (bs ++ repeat 0 32).

(** A stand-in for [crypt.EncryptedSize]: a file header of 32 bytes and a
    header of 16 bytes for every block of 64 KiB. *)
Definition encryptedSize (n : Z) : Z := 32 + n + 16 * ((n + 65535) / 65536).

Definition scenario (encrypted : bool) (randRead : error + list Z)
    (newCipher encryptData : option error)
    (media : error + tg.UpdatesClass) (dbCreate : option error)
    (getMessages : option tg.MessagesMessagesClass * option error) : Env :=
  {| e_bindQuery := inr (query encrypted);
     e_user := (7, "session");
     e_paramId := "abc";
     e_body := [80; 75; 3; 4];
     e_contentLength := 1000000;
     e_getDefaultChannel := inr 100;
     e_getBotsToken := inr ["4242:token"];
     e_authClient := None;
     e_workerNext := ("4242:token", 0);
     e_botClient := None;
     e_runWithAuth := None;
     e_getChannelById := inr {| tg.ChannelID := 100; tg.AccessHash := 9 |};
     e_randRead := randRead;
     e_sha256 := digest32;
     e_newCipher := fun _ _ => (1, newCipher);
     e_encryptData := fun _ body => (body, encryptData);
     e_encryptedSize := encryptedSize;
     e_upload := inr 5;
     e_media := media;
     e_now := noon;
     e_dbCreate := dbCreate;
     e_getMessages := getMessages |}.

Definition random32 : list Z := map Z.of_nat (seq 1 32).

(** The send confirmation that carries message 77. *)
Definition confirmed_77 : error + tg.UpdatesClass :=
  inr (tg.Updates [tg.UpdateOther; tg.UpdateNewChannelMessage (tg.Message 77)]).

Definition found_77 : option tg.MessagesMessagesClass * option error :=
  (Some (tg.MessagesChannelMessages [tg.Message 77]), None).



(** The Part Record of the scenario, as [UploadFile] hands it to the
    store and as the store keeps it. *)
Definition row_77 (encrypted : bool) (size : Z) (salt : string) (created : Z)
  : models.Upload :=
  {| models.Name := "video.mp4.001"; models.UploadId := "abc";
     models.PartId := 77; models.ChannelID := 100; models.Size := size;
     models.PartNo := 1; models.UserId := 7; models.Encrypted := encrypted;
     models.Salt := salt; models.CreatedAt := created |}.

(** The re-fetch finds nothing. *)
Definition found_nothing : option tg.MessagesMessagesClass * option error :=
  (Some (tg.MessagesChannelMessages []), None).

(** ** Sub-steps that answer with an error *)



(** The same configuration without an encryption key. *)
Definition cnf_no_key : config.TGConfig :=
  {| config.uploads := {| config.EncryptionKey := "";
                          config.Retention := week;
                          config.Threads := 8;
                          config.MaxRetries := 10 |};
     config.PoolSize := 8 |}.

(** * Proof steps *)

(** Proof steps for a run of [UploadFile]: unfold the monad, then follow
    the answers of the environment one after the other. *)
Ltac unfold_run :=
  unfold UploadFile, run, UploadFile_M, upload_closure, RunWithAuth,
    generateRandomSalt, call, call_, discard, pure, defer, bind, emit, ret,
    fail, panic, store in *.

Ltac path_step :=
  match goal with
  | |- context [match ?x with _ => _ end] =>
      match x with
      | context [match _ with _ => _ end] => fail 1
      | _ => destruct x eqn:?
      end
  end.

Ltac paths := repeat (path_step; cbn in * ).

Ltac in_trace H :=
  cbn in H;
  repeat match type of H with
         | _ \/ _ => destruct H as [H|H]
         | False => contradiction
         | _ = _ => first [discriminate H | injection H as H; subst]
         end.

(** * Properties *)

(** ** Listing the parts of a session *)

Section Listing.
Import gorm.

Lemma insert_by_part_no_In (u v : models.Upload) (l : table) :
  In v (insert_by_part_no u l) <-> v = u \/ In v l.
Proof.
  induction l as [|x l IH]; simpl.
  - intuition congruence.
  - destruct (models.PartNo u <=? models.PartNo x); simpl.
    + intuition congruence.
    + rewrite IH. intuition congruence.
Qed.

Lemma order_by_part_no_In (v : models.Upload) (l : table) :
  In v (order_by_part_no l) <-> In v l.
Proof.
  induction l as [|x l IH]; simpl.
  - reflexivity.
  - rewrite insert_by_part_no_In, IH. intuition congruence.
Qed.

Lemma insert_by_part_no_length (u : models.Upload) (l : table) :
  List.length (insert_by_part_no u l) = S (List.length l).
Proof.
  induction l as [|x l IH]; simpl; [reflexivity|].
  destruct (_ <=? _); simpl; congruence.
Qed.

Lemma order_by_part_no_length (l : table) :
  List.length (order_by_part_no l) = List.length l.
Proof.
  induction l as [|x l IH]; simpl; [reflexivity|].
  now rewrite insert_by_part_no_length, IH.
Qed.

(** A row is selected exactly when it belongs to the session and its
    [created_at] lies before [now + retention]. *)
Lemma selected_rows_In (retention now : Z) (id : string) (db : table)
    (u : models.Upload) :
  In u (selected_rows retention now id db) <->
  In u db /\ models.UploadId u = id /\ models.CreatedAt u < now + retention.
Proof.
  unfold selected_rows.
  rewrite order_by_part_no_In, filter_In, andb_true_iff.
  unfold where_upload_id, where_created_before.
  rewrite String.eqb_eq, Z.ltb_lt. tauto.
Qed.

(** With a retention that is not negative, the query keeps every row of
    the session that was created before now, whatever its age: the bound
    of the [created_at] clause lies in the future. *)
Lemma selected_rows_keeps_past_rows (retention now : Z) (id : string)
    (db : table) (u : models.Upload) :
  0 <= retention -> models.CreatedAt u < now ->
  In u db -> models.UploadId u = id ->
  In u (selected_rows retention now id db).
Proof.
  intros Hr Hpast Hin Hid. apply selected_rows_In. repeat split; auto. lia.
Qed.

End Listing.

(** C2, on the code: a Part Record created at [now - (retention + 1s)] is
    not omitted from the listing.  [GetUploadFileById] compares
    [created_at] with [now + retention], so the expired part is returned
    next to the fresh one. *)
Theorem GetUploadFileById_returns_expired_part :
  GetUploadFileById cnf_week [expired_part; fresh_part] noon None "abc"
  = Returned {| schemas.Parts := [ mapper.ToUploadOut expired_part;
                                   mapper.ToUploadOut fresh_part ] |}.
Proof. vm_compute. reflexivity. Qed.




(** ** Deleting a session *)

Lemma filter_after_delete (id id' : string) (db : gorm.table) :
  id' <> id ->
  filter (gorm.where_upload_id id') (gorm.delete_where_upload_id id db)
  = filter (gorm.where_upload_id id') db.
Proof.
  intros Hne. unfold gorm.delete_where_upload_id, gorm.where_upload_id.
  induction db as [|u db IH]; simpl; [reflexivity|].
  destruct (String.eqb_spec (models.UploadId u) id) as [Hid|Hid]; simpl.
  - destruct (String.eqb_spec (models.UploadId u) id') as [Hid'|_];
      [congruence | exact IH].
  - destruct (String.eqb (models.UploadId u) id'); now rewrite IH.
Qed.

(** C8: a successful [DeleteUploadFile] answers [upload deleted]; no row
    of the session is left, of whatever age or owner; the rows of every
    other session are the same rows in the same order; and the call adds
    nothing to the trace of collaborator calls, so nothing is sent to the
    transport. *)
Theorem DeleteUploadFile_removes_session (id : string) (w : World) :
  fst (DeleteUploadFile None id w)
    = Returned {| schemas.Message_Message := "upload deleted" |}
  /\ (forall u, In u (ledger w) ->
        (In u (ledger (snd (DeleteUploadFile None id w)))
         <-> models.UploadId u <> id))
  /\ (forall u, In u (ledger (snd (DeleteUploadFile None id w))) ->
        In u (ledger w) /\ models.UploadId u <> id)
  /\ (forall id', id' <> id ->
        filter (gorm.where_upload_id id')
               (ledger (snd (DeleteUploadFile None id w)))
        = filter (gorm.where_upload_id id') (ledger w))
  /\ trace (snd (DeleteUploadFile None id w)) = trace w.
Proof.
  assert (Hin : forall u,
             In u (gorm.delete_where_upload_id id (ledger w))
             <-> In u (ledger w) /\ models.UploadId u <> id).
  { intros u. unfold gorm.delete_where_upload_id, gorm.where_upload_id.
    rewrite filter_In, negb_true_iff, String.eqb_neq. reflexivity. }
  cbn. split; [reflexivity|]. split; [|split; [|split]].
  - intros u Hu. rewrite Hin. tauto.
  - intros u Hu. now apply Hin.
  - intros id' Hne. now apply filter_after_delete.
  - reflexivity.
Qed.

(** ** The client factory *)

(** C9: every client that [New] builds reconnects with an exponential
    backoff of multiplier 1.1 that gives up after 120 seconds, and
    retries an operation at most 5 times, 5 seconds apart. *)
Theorem New_resilience_settings (UpdateHandler Storage Middleware : Type)
    (config : utils.Config) (handler : option UpdateHandler)
    (storage : Storage) (middlewares : list Middleware)
    (b : backoff.ExponentialBackOff) :
  let o := telegram.opts (tgc.New config handler storage middlewares) in
  backoff.Multiplier (telegram.ReconnectionBackoff o b) = 11 # 10
  /\ backoff.MaxElapsedTime (telegram.ReconnectionBackoff o b) = 120 * second
  /\ telegram.MaxRetries o = 5
  /\ telegram.RetryInterval o = 5 * second.
Proof. cbn. repeat split. Qed.


(** ** The upload of one part *)

(** C7: an encrypted upload while no encryption key is configured is
    rejected with status 400 before any collaborator is called: the trace
    is empty, so nothing was transmitted, and the ledger is the one the
    call started with. *)
Theorem UploadFile_rejects_missing_key (cnf : config.TGConfig)
    (db : gorm.table) (env : Env) (q : schemas.UploadQuery) :
  e_bindQuery env = inr q ->
  schemas.q_Encrypted q = true ->
  config.EncryptionKey (config.uploads cnf) = "" ->
  UploadFile cnf db env
  = (Failed {| types.Error := "encryption key not found";
               types.Code := http.StatusBadRequest |},
     {| ledger := db; trace := [] |}).
Proof.
  intros Hq Henc Hkey.
  unfold UploadFile, run, UploadFile_M, bind.
  rewrite Hq. cbn. rewrite Henc, Hkey. reflexivity.
Qed.

Lemma UploadFile_rejects_missing_key_witness :
  UploadFile cnf_no_key [expired_part]
    (scenario true (inr random32) None None confirmed_77 None found_77)
  = (Failed {| types.Error := "encryption key not found";
               types.Code := 400 |},
     {| ledger := [expired_part]; trace := [] |}).
Proof.
  apply (@UploadFile_rejects_missing_key cnf_no_key [expired_part]
           (scenario true (inr random32) None None confirmed_77 None found_77)
           (query true)); reflexivity.
Defined.

(** C4: when the persist step is reached, which happens only after the
    part was uploaded and the send was confirmed with a message
    identifier other than zero, and the store refuses the row, then
    [UploadFile] asks the transport to delete that message of that
    channel, this is the only delete it issues, the error it returns is
    the error of the store, and the ledger is left as it was. *)
Theorem UploadFile_compensates_failed_persist (cnf : config.TGConfig)
    (db : gorm.table) (env : Env) (row : models.Upload) (err : error) :
  In (EvDbCreate row) (trace (snd (UploadFile cnf db env))) ->
  e_dbCreate env = Some err ->
  exists channel file updates,
    e_getChannelById env = inr channel
    /\ e_upload env = inr file
    /\ e_media env = inr (tg.Updates updates)
    /\ first_channel_message updates = Val (Some (models.PartId row))
    /\ models.PartId row <> 0
    /\ In (EvChannelsDeleteMessages channel [models.PartId row])
          (trace (snd (UploadFile cnf db env)))
    /\ (forall c ids,
          In (EvChannelsDeleteMessages c ids)
             (trace (snd (UploadFile cnf db env))) ->
          c = channel /\ ids = [models.PartId row])
    /\ fst (UploadFile cnf db env) = Failed (appError err)
    /\ ledger (snd (UploadFile cnf db env)) = db.
Proof.
  intros Hin Hc.
  unfold_run. rewrite Hc in *.
  destruct env; cbn in *.
  paths; in_trace Hin.
  all: do 3 eexists; cbn.
  all: repeat match goal with |- _ /\ _ => split end; try reflexivity;
    try assumption.
  all: try (apply Z.eqb_neq; assumption).
  all: try (intros c ids Hdel; in_trace Hdel; split; reflexivity).
  all: repeat first [left; reflexivity | right].
Qed.

Lemma UploadFile_compensates_failed_persist_witness :
  fst (UploadFile cnf_week []
         (scenario false (inr random32) None None confirmed_77
            (Some "duplicate key") found_77))
  = Failed (appError "duplicate key").
Proof.
  destruct (@UploadFile_compensates_failed_persist cnf_week []
              (scenario false (inr random32) None None confirmed_77
                 (Some "duplicate key") found_77)
              (row_77 false 1000000 "" 0) "duplicate key")
    as (c & f & us & _ & _ & _ & _ & _ & _ & _ & H & _).
  - vm_compute. repeat first [left; reflexivity | right].
  - reflexivity.
  - exact H.
Defined.




(** C1, on the code: the send is confirmed with message 77, the store
    accepts the row, and the re-fetch of message 77 finds nothing.
    [UploadFile] returns [upload failed], but the row was written before
    the check and stays: the ledger, empty before the call, holds the
    Part Record of message 77 after it. *)
Theorem UploadFile_failed_verification_leaves_record :
  fst (UploadFile cnf_week []
         (scenario false (inr random32) None None confirmed_77 None
            found_nothing))
  = Failed (appError "upload failed")
  /\ ledger (snd (UploadFile cnf_week []
                    (scenario false (inr random32) None None confirmed_77 None
                       found_nothing)))
     = [row_77 false 1000000 "" noon].
Proof. vm_compute. split; reflexivity. Qed.


(** C6, on the code: a send confirmation without a new-channel-message
    update.  The message pointer stays nil and reading its identifier
    panics: [UploadFile] does not return [upload failed], it does not
    return at all. *)
Theorem UploadFile_panics_without_channel_message :
  fst (UploadFile cnf_week []
         (scenario false (inr random32) None None
            (inr (tg.Updates [tg.UpdateOther])) None found_77))
  = Panicked "invalid memory address or nil pointer dereference"
  /\ fst (UploadFile cnf_week []
            (scenario false (inr random32) None None
               (inr (tg.Updates [])) None found_77))
     = Panicked "invalid memory address or nil pointer dereference".
Proof. vm_compute. split; reflexivity. Qed.

(** ** What holds next to the defects *)

Lemma EncodeToString_not_empty (src : list Z) :
  src <> [] -> base64.EncodeToString src <> "".
Proof.
  destruct src as [|a [|b [|c rest]]]; cbn; intros H; congruence.
Qed.

(** A send confirmation whose message has the identifier zero makes
    [UploadFile] fail with [upload failed]; nothing is written. *)
Lemma UploadFile_zero_id_fails (cnf : config.TGConfig) (db : gorm.table)
    (env : Env) (channel : tg.InputChannel) (file : InputFile)
    (name : string) (updates : list tg.UpdateClass) :
  In (EvSendMedia channel file name) (trace (snd (UploadFile cnf db env))) ->
  e_media env = inr (tg.Updates updates) ->
  first_channel_message updates = Val (Some 0) ->
  fst (UploadFile cnf db env) = Failed (appError "upload failed")
  /\ ledger (snd (UploadFile cnf db env)) = db.
Proof.
  intros Hin Hm Hid.
  unfold_run. rewrite Hm in *. destruct env; cbn in *. rewrite Hid in *.
  paths; in_trace Hin; split; reflexivity.
Qed.

(** A send confirmation without a new-channel-message update makes
    [UploadFile] panic, whatever the rest of the environment. *)
Lemma UploadFile_nil_message_panics (cnf : config.TGConfig) (db : gorm.table)
    (env : Env) (channel : tg.InputChannel) (file : InputFile)
    (name : string) (updates : list tg.UpdateClass) :
  In (EvSendMedia channel file name) (trace (snd (UploadFile cnf db env))) ->
  e_media env = inr (tg.Updates updates) ->
  first_channel_message updates = Val None ->
  fst (UploadFile cnf db env)
  = Panicked "invalid memory address or nil pointer dereference".
Proof.
  intros Hin Hm Hid.
  unfold_run. rewrite Hm in *. destruct env; cbn in *. rewrite Hid in *.
  paths; in_trace Hin; reflexivity.
Qed.

(** Whenever the re-fetch is reached and finds nothing, [UploadFile]
    fails with [upload failed] and the ledger has grown by the row of the
    message that was looked for. *)
Lemma UploadFile_failed_verification (cnf : config.TGConfig)
    (db : gorm.table) (env : Env) (channel : tg.InputChannel) (id : Z) :
  In (EvChannelsGetMessages channel id)
     (trace (snd (UploadFile cnf db env))) ->
  fst (e_getMessages env) = Some (tg.MessagesChannelMessages []) ->
  fst (UploadFile cnf db env) = Failed (appError "upload failed")
  /\ exists row,
       ledger (snd (UploadFile cnf db env)) = db ++ [row]
       /\ models.PartId row = id
       /\ models.UploadId row = e_paramId env.
Proof.
  intros Hin Hm.
  unfold_run. destruct env; cbn in *. rewrite Hm in *. cbn in *.
  paths; in_trace Hin; (split; [reflexivity|]);
    eexists; repeat split; reflexivity.
Qed.

(** When the random source answers, the record of a successful encrypted
    upload has the size [crypt.EncryptedSize] gives for the length of the
    request body, the encoded digest as its salt, which is not empty, and
    a message identifier other than zero. *)
Lemma UploadFile_encrypted_record (cnf : config.TGConfig) (db : gorm.table)
    (env : Env) (q : schemas.UploadQuery) (out : schemas.UploadPartOut)
    (randomBytes : list Z) :
  e_bindQuery env = inr q ->
  schemas.q_Encrypted q = true ->
  e_randRead env = inr randomBytes ->
  e_sha256 env randomBytes <> [] ->
  fst (UploadFile cnf db env) = Returned out ->
  exists row,
    ledger (snd (UploadFile cnf db env)) = db ++ [row]
    /\ models.Encrypted row = true
    /\ models.Size row = e_encryptedSize env (e_contentLength env)
    /\ models.Salt row = base64.EncodeToString (e_sha256 env randomBytes)
    /\ models.Salt row <> ""
    /\ models.PartId row <> 0.
Proof.
  intros Hq Henc Hrand Hsha Hret.
  unfold_run. rewrite Hq, Hrand in *. destruct env; cbn in *.
  rewrite Henc in *. cbn in *.
  paths; try discriminate Hret.
  all: eexists; repeat split; try reflexivity; cbn.
  all: try (apply EncodeToString_not_empty; assumption).
  all: apply Z.eqb_neq; assumption.
Qed.
